(** * File downloader: the download / decompress / extract / persist pipeline

    A shallow embedding of [file_processing/file_processing.py] and
    [services/routers/file.py], with the table of
    [services/database/models/file.py] as the persistent state. *)

From Stdlib Require Import ZArith NArith List Bool Lia Ascii String.
From Stdlib Require Import Strings.Byte.
From stdpp Require Import base option list gmap.

Open Scope Z_scope.

(** ** Python strings

    A Python [str] is a sequence of Unicode code points, so a character is
    the number of its code point and a string a list of them. *)

Definition char : Type := N.
Definition str : Type := list char.

(** An ASCII literal of the source as a [str]. *)
Definition py (s : string) : str :=
  List.map N_of_ascii (list_ascii_of_string s).

Definition LF : char := 10%N.
Definition CR : char := 13%N.

(** [str.splitlines] breaks lines at these code points (and at CR LF taken
    as one break): LF, VT, FF, CR, FS, GS, RS, NEL, LS, PS. *)
Definition is_linebreak (c : char) : bool :=
  existsb (N.eqb c)
    [10; 11; 12; 13; 28; 29; 30; 133; 8232; 8233]%N.

(** [str.split()] without a separator splits at runs of the characters for
    which [str.isspace] holds. *)
Definition isspace (c : char) : bool :=
  existsb (N.eqb c)
    [9; 10; 11; 12; 13; 28; 29; 30; 31; 32; 133; 160; 5760;
     8232; 8233; 8239; 8287; 12288]%N
  || ((8192 <=? c)%N && (c <=? 8202)%N).

(** [splitlines_from cur s]: [cur] is the line read so far, in reverse.  A
    line is emitted at each break; what follows the last break is emitted
    only when it is not empty, so a final line break opens no empty line. *)
Fixpoint splitlines_from (cur : str) (s : str) : list str :=
  match s with
  | [] => match cur with [] => [] | _ => [rev cur] end
  | c :: rest =>
      if is_linebreak c then
        rev cur ::
          (if (c =? CR)%N then
             match rest with
             | c' :: rest' =>
                 if (c' =? LF)%N then splitlines_from [] rest'
                 else splitlines_from [] rest
             | [] => splitlines_from [] rest
             end
           else splitlines_from [] rest)
      else splitlines_from (c :: cur) rest
  end.

Definition splitlines (s : str) : list str := splitlines_from [] s.

(** [split_from cur s]: [cur] is the token read so far, in reverse; empty
    tokens are never produced. *)
Fixpoint split_from (cur : str) (s : str) : list str :=
  match s with
  | [] => match cur with [] => [] | _ => [rev cur] end
  | c :: rest =>
      if isspace c then
        match cur with
        | [] => split_from [] rest
        | _ => rev cur :: split_from [] rest
        end
      else split_from (c :: cur) rest
  end.

Definition split (s : str) : list str := split_from [] s.

Fixpoint startswith (s prefix : str) : bool :=
  match prefix, s with
  | [], _ => true
  | p :: prefix', c :: s' => (c =? p)%N && startswith s' prefix'
  | _ :: _, [] => false
  end.

(** ** Exceptions and results

    The exceptions are grouped by the call that raises them, so that each
    handler of the source meets only the exceptions that can reach it. *)

(** Raised by the aiohttp calls. *)
Inductive http_exn : Type :=
  | ClientError          (* aiohttp.ClientError and its subclasses *)
  | TimeoutError.        (* asyncio.TimeoutError, not a ClientError *)

(** Raised by [gzip.open(file_content, 'rt')] and its [read()]. *)
Inductive gzip_exn : Type :=
  | BadGzipFile          (* gzip.BadGzipFile, a subclass of OSError *)
  | OtherOSError         (* an OSError that is not a BadGzipFile *)
  | EOFError
  | ZlibError            (* zlib.error *)
  | UnicodeDecodeError.

Inductive exn : Type :=
  | HttpExn (e : http_exn)
  | GzipExn (e : gzip_exn)
  | IndexError.

Inductive outcome (E A : Type) : Type :=
  | Ok (a : A)
  | Raise (e : E).
Arguments Ok {E A} a.
Arguments Raise {E A} e.

(** [except gzip.BadGzipFile] and [except (OSError, gzip.BadGzipFile)], on
    the exceptions of the gzip calls. *)
Definition isinstance_BadGzipFile (e : gzip_exn) : bool :=
  match e with BadGzipFile => true | _ => false end.

Definition isinstance_OSError (e : gzip_exn) : bool :=
  match e with BadGzipFile | OtherOSError => true | _ => false end.

(** [except aiohttp.ClientError]. *)
Definition isinstance_ClientError (e : exn) : bool :=
  match e with HttpExn ClientError => true | _ => false end.

(** ** extract_accession_numbers

    The function is the same text in [file_processing.py] and in
    [routers/file.py]. *)

Definition ACCESSION : str := py "ACCESSION".

(** The loop of the function: [acc] is [accession_list] so far.
    [line.split()[1]] raises IndexError when the line has fewer than two
    tokens. *)
Fixpoint extract_loop (lines : list str) (acc : list str)
  : outcome exn (list str) :=
  match lines with
  | [] => Ok acc
  | line :: rest =>
      if startswith line ACCESSION then
        match split line !! 1%nat with
        | Some tok => extract_loop rest (acc ++ [tok])
        | None => Raise IndexError
        end
      else extract_loop rest acc
  end.

Definition extract_accession_numbers (file_data : str)
  : outcome exn (list str) :=
  extract_loop (splitlines file_data) [].

(** ** The table [files] and the session *)

Record File : Type := mkFile {
  uuid : N;                       (* primary key, uuid4 *)
  download_task_id : Z;
  size : option N;                (* nullable Float, its bits; never set *)
  url : str;
  status : str;
  result_count : Z;
  accession_list : list str;
  created_at : Z
}.

Definition DOWNLOADING : str := py "Downloading".
Definition COMPLETED : str := py "Completed".
Definition FAILED_TO_DOWNLOAD : str := py "Failed to download".
Definition FAILED_TO_DECOMPRESS : str := py "Failed to decompress".
Definition FAILED_UNEXPECTED : str := py "Failed due to an unexpected error".

(** The session: the rows of the table in insertion order, and for each
    coming transaction whether the database raises SQLAlchemyError in it
    (none left: no fault). *)
Record Session : Type := mkSession {
  rows : list File;
  faults : list bool
}.

(** Entering a transaction consumes its entry of the fault schedule. *)
Definition begin (s : Session) : bool * Session :=
  match faults s with
  | [] => (false, s)
  | b :: fs => (b, mkSession (rows s) fs)
  end.

Definition set_rows (s : Session) (rs : list File) : Session :=
  mkSession rs (faults s).

(** [select(File).filter_by(download_task_id=task_id)] ... [.first()]: the
    first row with this task id, with its position. *)
Definition first_by_task_id (task_id : Z) (rs : list File)
  : option (nat * File) :=
  list_find (λ r, download_task_id r = task_id) rs.

(** ** update_file_status

    The same in both files (file_processing.py also logs a warning when no
    record is found).  A SQLAlchemyError is caught and the transaction
    rolled back: the rows stay as they were.  The function returns None
    and raises nothing. *)

Definition assign_status (r : File) (st : str) (acc : option (list str))
  : File :=
  match acc with
  | None =>
      mkFile (uuid r) (download_task_id r) (size r) (url r) st
        (result_count r) (accession_list r) (created_at r)
  | Some l =>
      mkFile (uuid r) (download_task_id r) (size r) (url r) st
        (Z.of_nat (length l)) l (created_at r)
  end.

Definition update_file_status (task_id : Z) (st : str)
    (acc : option (list str)) (s : Session) : Session :=
  match begin s with
  | (true, s') => s'
  | (false, s') =>
      match first_by_task_id task_id (rows s') with
      | None => s'
      | Some (i, file_record) =>
          set_rows s' (<[i := assign_status file_record st acc]> (rows s'))
      end
  end.

(** ** The monad of the pipeline: session state and exceptions *)

Definition M (A : Type) : Type := Session → outcome exn A * Session.

Global Instance M_ret : MRet M := λ A a s, (Ok a, s).

Global Instance M_bind : MBind M := λ A B k m s,
  match m s with
  | (Ok a, s') => k a s'
  | (Raise e, s') => (Raise e, s')
  end.

(** A pure call that may raise, its exceptions injected by [inj]. *)
Definition lift {E A : Type} (inj : E → exn) (o : outcome E A) : M A :=
  λ s, match o with Ok a => (Ok a, s) | Raise e => (Raise (inj e), s) end.

(** A call on the session that returns None. *)
Definition effect (f : Session → Session) : M unit := λ s, (Ok (), f s).

(** [try: m except ...]: [h e] is the body of the first handler that
    matches [e], if one does. *)
Definition try_except {A : Type} (m : M A) (h : exn → option (M A)) : M A :=
  λ s, match m s with
       | (Ok a, s') => (Ok a, s')
       | (Raise e, s') =>
           match h e with
           | Some k => k s'
           | None => (Raise e, s')
           end
       end.

(** ** The network and the gzip reader *)

Module Response.
Record t : Type := mk {
  status : Z;
  read : outcome http_exn (list byte)
}.
End Response.

(** What the pipeline meets outside the program: the answer to a GET and
    to a HEAD of a URL, and what [gzip.open(io.BytesIO(b), 'rt').read()]
    gives for the bytes [b]. *)
Record World : Type := mkWorld {
  http_get : str → outcome http_exn Response.t;
  http_head : str → outcome http_exn Response.t;
  gzip_read : list byte → outcome gzip_exn str
}.

(** The handlers around the pipeline:
    [except aiohttp.ClientError] then [except Exception]. *)
Definition outer_handlers (task_id : Z) (e : exn) : option (M unit) :=
  Some (if isinstance_ClientError e
        then effect (update_file_status task_id FAILED_TO_DOWNLOAD None)
        else effect (update_file_status task_id FAILED_UNEXPECTED None)).

(** The body shared by the two copies of [download_and_process_file];
    [caught] is the class test of the handler around the gzip calls.  The
    [return] in a branch ends the function: nothing follows it here. *)
Definition pipeline (caught : gzip_exn → bool) (w : World) (url : str)
    (task_id : Z) : M unit :=
  try_except
    (response ← lift HttpExn (http_get w url);
     if negb (Response.status response =? 200) then
       effect (update_file_status task_id FAILED_TO_DOWNLOAD None)
     else
       file_content ← lift HttpExn (Response.read response);
       match gzip_read w file_content with
       | Raise e =>
           if caught e then
             effect (update_file_status task_id FAILED_TO_DECOMPRESS None)
           else lift GzipExn (Raise e)
       | Ok file_data =>
           accession_list ← lift id (extract_accession_numbers file_data);
           effect (update_file_status task_id COMPLETED (Some accession_list))
       end)
    (outer_handlers task_id).

(** The function exists twice, in file_processing/file_processing.py with
    [except (OSError, gzip.BadGzipFile)] around the gzip calls and in
    services/routers/file.py with [except gzip.BadGzipFile]. *)
Inductive source_file : Type := file_processing_py | routers_file_py.

Definition caught_in (c : source_file) : gzip_exn → bool :=
  match c with
  | file_processing_py => isinstance_OSError
  | routers_file_py => isinstance_BadGzipFile
  end.

Definition download_and_process_file (c : source_file)
  : World → str → Z → M unit :=
  pipeline (caught_in c).

(** ** The header stage of Python's gzip reader

    [gzip.open(...).read()] first reads the member header
    ([_read_gzip_header] in Lib/gzip.py); the functions below follow it on
    the bytes of the buffer.  What comes after the header (the deflate
    data, the CRC and length trailer, further members, the decoding to
    text) is left to a function given from outside. *)

(** [_read_exact(fp, n)]: the next [n] bytes, EOFError when fewer are left. *)
Definition read_exact (fp : list byte) (n : nat)
  : outcome gzip_exn (list byte * list byte) :=
  if (length fp <? n)%nat then Raise EOFError
  else Ok (take n fp, drop n fp).

(** The loop [s = fp.read(1); if not s or s == b'\000': break]: skip up to
    and including the first zero byte, or to the end. *)
Fixpoint skip_zero_terminated (fp : list byte) : list byte :=
  match fp with
  | [] => []
  | b :: fp' => if Byte.eqb b x00 then fp' else skip_zero_terminated fp'
  end.

Definition FHCRC : N := 2%N.
Definition FEXTRA : N := 4%N.
Definition FNAME : N := 8%N.
Definition FCOMMENT : N := 16%N.

Definition has_flag (flag mask : N) : bool := negb (N.land flag mask =? 0)%N.

(** The optional fields after the ten fixed bytes, by the flag byte. *)
Definition skip_optional_fields (flag : N) (fp : list byte)
  : outcome gzip_exn (list byte) :=
  match
    (if has_flag flag FEXTRA then
       match read_exact fp 2 with
       | Raise e => Raise e
       | Ok ([lo; hi], fp1) =>
           match read_exact fp1 (N.to_nat (Byte.to_N lo + 256 * Byte.to_N hi)) with
           | Raise e => Raise e
           | Ok (_, fp2) => Ok fp2
           end
       | Ok (_, fp1) => Ok fp1
       end
     else Ok fp)
  with
  | Raise e => Raise e
  | Ok fp2 =>
      let fp3 := if has_flag flag FNAME then skip_zero_terminated fp2 else fp2 in
      let fp4 := if has_flag flag FCOMMENT then skip_zero_terminated fp3 else fp3 in
      if has_flag flag FHCRC then
        match read_exact fp4 2 with
        | Raise e => Raise e
        | Ok (_, fp5) => Ok fp5
        end
      else Ok fp4
  end.

(** Equality of two byte strings. *)
Fixpoint bytes_eqb_with {A : Type} (eq : A → A → bool) (l1 l2 : list A) : bool :=
  match l1, l2 with
  | [], [] => true
  | a :: l1', b :: l2' => eq a b && bytes_eqb_with eq l1' l2'
  | _, _ => false
  end.

(** [_read_gzip_header(fp)]: None at the end of the input, otherwise the
    bytes that follow the header. *)
Definition read_gzip_header (fp : list byte)
  : outcome gzip_exn (option (list byte)) :=
  match take 2 fp with
  | [] => Ok None
  | magic =>
      if negb (bytes_eqb_with Byte.eqb magic [x1f; x8b]) then Raise BadGzipFile
      else
        match read_exact (drop 2 fp) 8 with
        | Raise e => Raise e
        | Ok (method :: flag :: _, fp1) =>
            if negb (Byte.eqb method x08) then Raise BadGzipFile
            else
              match skip_optional_fields (Byte.to_N flag) fp1 with
              | Raise e => Raise e
              | Ok fp2 => Ok (Some fp2)
              end
        | Ok (_, _) => Raise EOFError
        end
  end.

(** The reader, given what it does after the first header: an empty buffer
    reads as the empty text. *)
Definition gzip_open_rt_read (after_header : list byte → outcome gzip_exn str)
    (data : list byte) : outcome gzip_exn str :=
  match read_gzip_header data with
  | Raise e => Raise e
  | Ok None => Ok []
  | Ok (Some rest) => after_header rest
  end.

(** ** The request handlers of services/routers/file.py *)

(** What a handler raises: an HTTPException with its status code and
    detail, or an exception that no handler of the function catches. *)
Inductive http_error : Type :=
  | HTTPException (status_code : Z) (detail : str)
  | Unhandled (e : exn).

Module FileDownloadResponse.
Record t : Type := mk { id : Z; status : str }.
End FileDownloadResponse.

Module FileStatusResponse.
Record t : Type := mk {
  status : str;
  result_count : Z;
  accession_list : list str
}.
End FileStatusResponse.

(** *** Python list objects

    A list is an object with an identity: two names may hold the same
    list, and [append] changes the object both see.  The heap maps the
    address of each list object to its elements. *)

Definition loc : Type := nat.

Definition alloc (h : gmap loc (list str)) (v : list str)
  : loc * gmap loc (list str) :=
  let l := fresh (dom h) in (l, <[l := v]> h).

Definition deref (h : gmap loc (list str)) (l : loc) : list str :=
  default [] (h !! l).

(** [xs.append(x)] *)
Definition append (h : gmap loc (list str)) (l : loc) (x : str)
  : gmap loc (list str) :=
  alter (λ xs, xs ++ [x]) l h.

(** The File object loaded from a row: its [accession_list] attribute
    holds a list object. *)
Record FileObject : Type := mkFileObject {
  o_row : File;
  o_accession_list : loc
}.

Definition load (h : gmap loc (list str)) (row : File)
  : FileObject * gmap loc (list str) :=
  let '(l, h') := alloc h (accession_list row) in (mkFileObject row l, h').

(** The commit on leaving [session.begin()]: the list attribute is a
    MutableList, so a change made to the list object in place is written
    to the row. *)
Definition flush (h : gmap loc (list str)) (o : FileObject) : File :=
  let r := o_row o in
  mkFile (uuid r) (download_task_id r) (size r) (url r) (status r)
    (result_count r) (deref h (o_accession_list o)) (created_at r).

(** The body of the transaction of [check_status] on the loaded object:
    the address of [display_accessions] and the heap after the append. *)
Definition display_accessions (h : gmap loc (list str)) (file_record : FileObject)
  : loc * gmap loc (list str) :=
  let '(display, h1) :=
    match deref h (o_accession_list file_record) with
    | [] => alloc h []
    | xs => alloc h (take 20 xs)
    end in
  (display, append h1 display (py "...")).

Module Routers.

(** [task_id] is the value drawn by [random.randint(1, 10 ** 6)];
    [new_uuid] and [now] are the column defaults [uuid.uuid4()] and
    [utcnow()] of the new row.  The uuid is the primary key: an insert
    that repeats one fails in the database.  The second component tells
    whether the background task was scheduled. *)
Definition start_download (w : World) (request_url : str) (task_id : Z)
    (new_uuid : N) (now : Z) (s : Session)
  : outcome http_error FileDownloadResponse.t * Session :=
  match http_head w request_url with
  | Raise ClientError => (Raise (HTTPException 400 (py "Invalid URL")), s)
  | Raise TimeoutError => (Raise (Unhandled (HttpExn TimeoutError)), s)
  | Ok response =>
      if negb (Response.status response =? 200) then
        (Raise (HTTPException 400 (py "Invalid URL")), s)
      else
        match begin s with
        | (true, s') =>
            (Raise (HTTPException 500 (py "Failed to start download")), s')
        | (false, s') =>
            if existsb (λ r, (uuid r =? new_uuid)%N) (rows s') then
              (Raise (HTTPException 500 (py "Failed to start download")), s')
            else
              let download_task :=
                mkFile new_uuid task_id None request_url DOWNLOADING 0 [] now in
              (Ok (FileDownloadResponse.mk task_id DOWNLOADING),
               set_rows s' (rows s' ++ [download_task]))
        end
  end.

(** The request as FastAPI serves it: the handler, then the background
    task [download_and_process_file] when the handler returned. *)
Definition serve_start_download (w : World) (request_url : str) (task_id : Z)
    (new_uuid : N) (now : Z) (s : Session)
  : outcome http_error FileDownloadResponse.t * Session :=
  match start_download w request_url task_id new_uuid now s with
  | (Ok reply, s') =>
      (Ok reply,
       (download_and_process_file routers_file_py w request_url task_id s').2)
  | (Raise e, s') => (Raise e, s')
  end.

Definition check_status (task_id : Z) (s : Session)
  : outcome http_error FileStatusResponse.t * Session :=
  match begin s with
  | (true, s') =>
      (Raise (HTTPException 500 (py "Failed to retrieve status")), s')
  | (false, s') =>
      match first_by_task_id task_id (rows s') with
      | None => (Raise (HTTPException 404 (py "Task not found")), s')
      | Some (i, row) =>
          let '(file_record, h) := load ∅ row in
          let '(display, h') := display_accessions h file_record in
          (Ok (FileStatusResponse.mk
                 (status (o_row file_record))
                 (result_count (o_row file_record))
                 (deref h' display)),
           set_rows s' (<[i := flush h' file_record]> (rows s')))
      end
  end.

End Routers.

(** ** The runs of the service

    One step is one call on the session: a request served or one of the
    functions above called with any arguments. *)
Inductive step (w : World) : Session → Session → Prop :=
  | step_start_download request_url task_id new_uuid now s :
      step w s (Routers.start_download w request_url task_id new_uuid now s).2
  | step_check_status task_id s :
      step w s (Routers.check_status task_id s).2
  | step_update_file_status task_id st acc s :
      step w s (update_file_status task_id st acc s)
  | step_pipeline c request_url task_id s :
      step w s (download_and_process_file c w request_url task_id s).2.

(** The sessions the service can be in, from an empty table. *)
Definition reachable (w : World) (s : Session) : Prop :=
  ∃ fs, rtc (step w) (mkSession [] fs) s.

(** ** Notions of the specification *)

(** The lines of a text that begin with ACCESSION, in their order. *)
Definition accession_lines (file_data : str) : list str :=
  List.filter (λ line, startswith line ACCESSION) (splitlines file_data).

(** The second whitespace-delimited token of a line, when it has one. *)
Definition second_token (line : str) : option str := split line !! 1%nat.

(** The status and the accession list a run of the pipeline hands to
    [update_file_status] once the body is read, by what the gzip reader
    gave for it. *)
Definition written_after_read (caught : gzip_exn → bool)
    (g : outcome gzip_exn str) : str * option (list str) :=
  match g with
  | Raise e =>
      if caught e then (FAILED_TO_DECOMPRESS, None)
      else (FAILED_UNEXPECTED, None)
  | Ok file_data =>
      match extract_accession_numbers file_data with
      | Ok accession_list => (COMPLETED, Some accession_list)
      | Raise _ => (FAILED_UNEXPECTED, None)
      end
  end.

(** The same for a whole run, read off the answers of the world. *)
Definition written (caught : gzip_exn → bool) (w : World) (url : str)
  : str * option (list str) :=
  match http_get w url with
  | Raise ClientError => (FAILED_TO_DOWNLOAD, None)
  | Raise TimeoutError => (FAILED_UNEXPECTED, None)
  | Ok response =>
      if Response.status response =? 200 then
        match Response.read response with
        | Raise ClientError => (FAILED_TO_DOWNLOAD, None)
        | Raise TimeoutError => (FAILED_UNEXPECTED, None)
        | Ok file_content =>
            written_after_read caught (gzip_read w file_content)
        end
      else (FAILED_TO_DOWNLOAD, None)
  end.

(** The terminal statuses: every status the pipeline writes. *)
Definition terminal (st : str) : Prop :=
  st = COMPLETED ∨ st = FAILED_TO_DOWNLOAD ∨ st = FAILED_TO_DECOMPRESS
  ∨ st = FAILED_UNEXPECTED.

(** The successful class of HTTP status codes, 2xx. *)
Definition http_success (code : Z) : bool := (200 <=? code) && (code <? 300).

(** ** Inputs of the scenarios *)

(** ["ACCESSION A1\nIGNORE\nACCESSION A2\n"] *)
Definition text_A : str :=
  py "ACCESSION A1" ++ [LF] ++ py "IGNORE" ++ [LF] ++ py "ACCESSION A2" ++ [LF].

(** [gzip.compress(text_A, 9, mtime=0)] *)
Definition gzip_A : list byte :=
  [x1f; x8b; x08; x00; x00; x00; x00; x00; x02; x03; x73; x74; x76; x76; x0d;
   x0e; xf6; xf4; xf7; x53; x70; x34; xe4; xf2; x74; xf7; xf3; x0f; x72; xe5;
   x72; x44; x88; x19; x71; x01; x00; xa2; x20; x42; xe7; x21; x00; x00; x00].

(** A gzip stream cut after its first four bytes. *)
Definition gzip_truncated : list byte := [x1f; x8b; x08; x00].

(** ["ACCESSION\nACCESSION A1\n"]: the first line has no second token. *)
Definition text_malformed : str :=
  py "ACCESSION" ++ [LF] ++ py "ACCESSION A1" ++ [LF].

(** ["ACCESSION A1\nACCESSION\n"]: one accession line, then a line that
    is the word ACCESSION alone. *)
Definition text_accession_then_bare : str :=
  py "ACCESSION A1" ++ [LF] ++ py "ACCESSION" ++ [LF].

(** A world whose server answers every request with status [code] and the
    body [body], and whose gzip reader is the one above. *)
Definition world_serving (code : Z) (body : list byte)
    (after_header : list byte → outcome gzip_exn str) : World :=
  mkWorld (λ _, Ok (Response.mk code (Ok body)))
          (λ _, Ok (Response.mk code (Ok body)))
          (gzip_open_rt_read after_header).

(** The world of scenario A: status 200 and the gzip of [text_A]. *)
Definition world_A : World := world_serving 200 gzip_A (λ _, Ok text_A).

(** The same body served with the status 204 No Content. *)
Definition world_204 : World := world_serving 204 gzip_A (λ _, Ok text_A).

Definition example_url : str := py "http://example.org/a.gz".

Definition row_of (task_id : Z) (st : str) (l : list str) : File :=
  mkFile 1%N task_id None example_url st (Z.of_nat (length l)) l 0.

(** A session with the one task 7, still downloading. *)
Definition session_downloading : Session :=
  mkSession [row_of 7 DOWNLOADING []] [].

(** A session with the one task 7, completed with two accessions. *)
Definition session_completed : Session :=
  mkSession [row_of 7 COMPLETED [py "A1"; py "A2"]] [].

(** A session with the one task 7, completed with 25 accessions. *)
Definition accession_n (n : nat) : str := py "ID" ++ [N.of_nat (65 + n)].

Definition session_long : Session :=
  mkSession [row_of 7 COMPLETED (List.map accession_n (seq 0 25))] [].

(** In a record the count is the length of the list. *)
Definition consistent (r : File) : Prop :=
  result_count r = Z.of_nat (length (accession_list r)).

(** ** Texts written line by line

    A text as a program that produces such files writes it: one line per
    entry, each ended by a line feed; an accession entry is the word
    ACCESSION, a space and the identifier. *)

Definition whitespace_free (t : str) : bool :=
  forallb (λ c, negb (isspace c)) t.

Definition linebreak_free (t : str) : bool :=
  forallb (λ c, negb (is_linebreak c)) t.

Inductive entry : Type :=
  | Accession (id : str)
  | Other (line : str).

Definition render_entry (e : entry) : str :=
  match e with
  | Accession id => ACCESSION ++ [32%N] ++ id
  | Other line => line
  end.

Definition render (es : list entry) : str :=
  List.concat (List.map (λ e, render_entry e ++ [LF]) es).

Definition accessions (es : list entry) : list str :=
  List.concat
    (List.map (λ e, match e with Accession id => [id] | Other _ => [] end) es).

(** An identifier is a non-empty word without whitespace; another line
    has no line break inside and does not begin with ACCESSION. *)
Definition well_formed_entry (e : entry) : Prop :=
  match e with
  | Accession id => id ≠ [] ∧ whitespace_free id = true
  | Other line => linebreak_free line = true ∧ startswith line ACCESSION = false
  end.

(** ** The service alone

    The steps of the running service: a download request served with its
    background task, or a status query. *)
Inductive service_step (w : World) : Session → Session → Prop :=
  | service_start_download request_url task_id new_uuid now s :
      service_step w s
        (Routers.serve_start_download w request_url task_id new_uuid now s).2
  | service_check_status task_id s :
      service_step w s (Routers.check_status task_id s).2.

(** The statuses the service writes. *)
Definition service_status (st : str) : Prop :=
  st = DOWNLOADING ∨ terminal st.

(** Two records are the same task: the fields set at creation agree. *)
Definition same_task (r r' : File) : Prop :=
  uuid r' = uuid r ∧ download_task_id r' = download_task_id r
  ∧ size r' = size r ∧ url r' = url r ∧ created_at r' = created_at r.

(** * Properties *)

(** ** The string functions on examples *)

Example splitlines_ex :
  splitlines (py "ab" ++ [CR; LF] ++ py "c" ++ [LF; LF] ++ py "d" ++ [LF])
  = [py "ab"; py "c"; []; py "d"].
Proof. reflexivity. Qed.

Example splitlines_lf_cr :
  splitlines (py "a" ++ [LF; CR] ++ py "b" ++ [CR]) = [py "a"; []; py "b"].
Proof. reflexivity. Qed.

Example splitlines_empty : splitlines [] = [] ∧ splitlines [LF] = [[]].
Proof. split; reflexivity. Qed.

Example split_ex :
  split (py "  ACCESSION   A1 B2 ") = [py "ACCESSION"; py "A1"; py "B2"].
Proof. reflexivity. Qed.

(** U+001F separates tokens but not lines; U+2028 separates both. *)
Example split_unit_separator :
  split (py "a" ++ [31%N] ++ py "b") = [py "a"; py "b"]
  ∧ splitlines (py "a" ++ [31%N] ++ py "b") = [py "a" ++ [31%N] ++ py "b"]
  ∧ splitlines (py "a" ++ [8232%N] ++ py "b") = [py "a"; py "b"].
Proof. repeat split. Qed.

Example extract_ex :
  extract_accession_numbers text_A = Ok [py "A1"; py "A2"].
Proof. reflexivity. Qed.

(** ** Extraction *)

Section Extraction.

Implicit Types (lines acc : list str) (line tok : str).

Lemma extract_loop_app lines acc toks :
  mapM second_token (List.filter (λ line, startswith line ACCESSION) lines)
    = Some toks →
  extract_loop lines acc = Ok (acc ++ toks).
Proof.
  revert acc toks. induction lines as [|line lines IH]; intros acc toks.
  - cbn. intros [= <-]. by rewrite app_nil_r.
  - cbn [List.filter extract_loop].
    destruct (startswith line ACCESSION) eqn:Hp; [|by apply IH].
    rewrite mapM_Some. intros Hall.
    apply Forall2_cons_inv_l in Hall as (tok & toks' & Htok & Hrest & ->).
    unfold second_token in Htok. rewrite Htok.
    rewrite (IH (acc ++ [tok]) toks'); [|by apply mapM_Some].
    by rewrite <- app_assoc.
Qed.

Lemma extract_loop_raises lines acc line :
  In line (List.filter (λ line, startswith line ACCESSION) lines) →
  second_token line = None →
  extract_loop lines acc = Raise IndexError.
Proof.
  revert acc. induction lines as [|l lines IH]; intros acc;
    cbn [List.filter extract_loop]; [done|].
  destruct (startswith l ACCESSION) eqn:Hp; [|by apply IH].
  intros [->|Hin] Hnone.
  - unfold second_token in Hnone. by rewrite Hnone.
  - destruct (split l !! 1%nat); [by apply IH|done].
Qed.

Lemma extract_loop_raises_IndexError lines acc e :
  extract_loop lines acc = Raise e → e = IndexError.
Proof.
  revert acc. induction lines as [|line lines IH]; intros acc;
    cbn [extract_loop]; [done|].
  destruct (startswith line ACCESSION); [|by apply IH].
  destruct (split line !! 1%nat); [by apply IH|by intros [= <-]].
Qed.

(** IndexError is the only exception of the extraction. *)
Lemma extract_raises_IndexError file_data e :
  extract_accession_numbers file_data = Raise e → e = IndexError.
Proof. apply extract_loop_raises_IndexError. Qed.

(** One line that begins with ACCESSION and has no second token makes the
    whole extraction raise. *)
Lemma extract_raises_on_missing_token file_data line :
  In line (accession_lines file_data) →
  second_token line = None →
  extract_accession_numbers file_data = Raise IndexError.
Proof. apply extract_loop_raises. Qed.

(** When every line that begins with ACCESSION has a second
    whitespace-delimited token, [extract_accession_numbers] returns one
    identifier for each such line, in the order of the lines, each the
    second token of its line. *)
Lemma extract_accession_numbers_in_order (file_data : str) :
  (∀ line, In line (accession_lines file_data) → is_Some (second_token line)) →
  ∃ ids,
    extract_accession_numbers file_data = Ok ids
    ∧ length ids = length (accession_lines file_data)
    ∧ ∀ i line, accession_lines file_data !! i = Some line →
                ids !! i = second_token line.
Proof.
  intros Hall.
  assert (is_Some (mapM second_token (accession_lines file_data))) as [ids Hids].
  { apply mapM_is_Some, Forall_forall. intros line Hin.
    apply Hall. by apply list_elem_of_In. }
  exists ids. split; [|split].
  - unfold extract_accession_numbers.
    by rewrite (extract_loop_app _ [] ids Hids).
  - symmetry. by eapply length_mapM.
  - intros i line Hi. apply mapM_Some in Hids.
    destruct (Forall2_lookup_l _ _ _ _ _ Hids Hi) as (tok & Htok & Hsnd).
    by rewrite Htok, Hsnd.
Qed.

(** C1: the text has the accession line ACCESSION A1 and then a line
    that is the word ACCESSION alone, so one line gives an identifier.
    The extraction raises IndexError at the second line and returns no
    identifier, not even A1. *)
Theorem extract_accession_numbers_loses_identifier :
  splitlines text_accession_then_bare = [py "ACCESSION A1"; py "ACCESSION"]
  ∧ split (py "ACCESSION A1") = [py "ACCESSION"; py "A1"]
  ∧ split (py "ACCESSION") = [py "ACCESSION"]
  ∧ extract_accession_numbers text_accession_then_bare = Raise IndexError.
Proof. by vm_compute. Qed.

(** C3: on a text whose first line is ACCESSION alone, the extraction
    raises IndexError at that line and the accession of the next line
    is not extracted. *)
Theorem extract_accession_numbers_raises_on_missing_token :
  accession_lines text_malformed = [py "ACCESSION"; py "ACCESSION A1"]
  ∧ second_token (py "ACCESSION") = None
  ∧ extract_accession_numbers text_malformed = Raise IndexError.
Proof. by vm_compute. Qed.

End Extraction.

(** ** The pipeline *)

Section Pipeline.

Context (caught : gzip_exn → bool) (w : World).
Implicit Types (url : str) (task_id : Z) (s : Session).

(** Every run of the pipeline returns None and is one call of
    [update_file_status]. *)
Lemma pipeline_one_write url task_id s :
  pipeline caught w url task_id s
  = (Ok (), update_file_status task_id (written caught w url).1
              (written caught w url).2 s).
Proof.
  unfold pipeline, written, written_after_read, try_except, mbind, M_bind,
    lift, effect, outer_handlers.
  destruct (http_get w url) as [response|[]]; [|done..].
  destruct (Response.status response =? 200); cbn [negb]; [|done].
  destruct (Response.read response) as [file_content|[]]; [|done..].
  destruct (gzip_read w file_content) as [file_data|e].
  - destruct (extract_accession_numbers file_data) as [ids|e] eqn:He; [done|].
    by rewrite (extract_raises_IndexError _ _ He).
  - by destruct (caught e).
Qed.

End Pipeline.

(** ** update_file_status *)

Section Update.

Implicit Types (task_id : Z) (st : str) (acc : option (list str))
  (s : Session) (r : File) (i : nat).

Lemma begin_rows s : rows (begin s).2 = rows s.
Proof. unfold begin. by destruct (faults s). Qed.

Lemma assign_status_task_id r st acc :
  download_task_id (assign_status r st acc) = download_task_id r.
Proof. by destruct acc. Qed.

Lemma assign_status_status r st acc : status (assign_status r st acc) = st.
Proof. by destruct acc. Qed.

(** A transaction that fails, or that finds no record, changes no row. *)
Lemma update_file_status_fault task_id st acc s :
  (begin s).1 = true → rows (update_file_status task_id st acc s) = rows s.
Proof.
  intros Hb. unfold update_file_status.
  pose proof (begin_rows s) as Hr. destruct (begin s) as [b s'].
  cbn in Hb, Hr. by subst b.
Qed.

Lemma update_file_status_missing task_id st acc s :
  first_by_task_id task_id (rows s) = None →
  rows (update_file_status task_id st acc s) = rows s.
Proof.
  intros Hf. unfold update_file_status.
  pose proof (begin_rows s) as Hr. destruct (begin s) as [b s'].
  cbn in Hr. destruct b; [done|]. by rewrite Hr, Hf.
Qed.

(** Otherwise the first record of the task is assigned, in place. *)
Lemma update_file_status_found task_id st acc s i r :
  (begin s).1 = false →
  first_by_task_id task_id (rows s) = Some (i, r) →
  rows (update_file_status task_id st acc s)
  = <[i := assign_status r st acc]> (rows s).
Proof.
  intros Hb Hf. unfold update_file_status.
  pose proof (begin_rows s) as Hr. destruct (begin s) as [b s'].
  cbn in Hb, Hr. subst b. by rewrite Hr, Hf.
Qed.

(** The assigned record stays the first one of its task. *)
Lemma first_by_task_id_insert task_id (rs : list File) i r r' :
  first_by_task_id task_id rs = Some (i, r) →
  download_task_id r' = task_id →
  first_by_task_id task_id (<[i := r']> rs) = Some (i, r').
Proof.
  unfold first_by_task_id. intros Hf Hid.
  apply list_find_Some in Hf as (Hi & _ & Hbefore).
  apply list_find_Some. split; [|split; [done|]].
  - apply list_lookup_insert_eq. by eapply lookup_lt_Some.
  - intros j y Hj Hlt. rewrite list_lookup_insert_ne in Hj by lia.
    by eapply Hbefore.
Qed.

Lemma terminal_COMPLETED : terminal COMPLETED.
Proof. by left. Qed.

End Update.

(** ** What the pipeline persists *)

Section Persisted.

Implicit Types (c : source_file) (w : World) (url : str) (task_id : Z)
  (s : Session).

Lemma download_and_process_file_one_write c w url task_id s :
  download_and_process_file c w url task_id s
  = (Ok (), update_file_status task_id (written (caught_in c) w url).1
              (written (caught_in c) w url).2 s).
Proof. apply pipeline_one_write. Qed.



(** The gzip reader on a buffer cut inside the header. *)
Lemma gzip_truncated_EOFError after_header :
  gzip_open_rt_read after_header gzip_truncated = Raise EOFError.
Proof. reflexivity. Qed.

(** A buffer that does not begin with the two magic bytes. *)
Lemma gzip_bad_magic after_header (a b : byte) (rest : list byte) :
  Byte.eqb a x1f && Byte.eqb b x8b = false →
  gzip_open_rt_read after_header (a :: b :: rest) = Raise BadGzipFile.
Proof.
  intros Hm. unfold gzip_open_rt_read, read_gzip_header.
  cbn [take bytes_eqb_with]. rewrite andb_true_r. by rewrite Hm.
Qed.

(** BadGzipFile is caught in both files. *)
Lemma bad_gzip_file_failed_to_decompress c w url task_id response body s :
  http_get w url = Ok response →
  Response.status response = 200 →
  Response.read response = Ok body →
  gzip_read w body = Raise BadGzipFile →
  download_and_process_file c w url task_id s
  = (Ok (), update_file_status task_id FAILED_TO_DECOMPRESS None s).
Proof.
  intros Hget Hst Hread Hgz. rewrite download_and_process_file_one_write.
  unfold written, written_after_read. rewrite Hget, Hst, Hread, Hgz.
  by destruct c.
Qed.

(** C5: the server answers 200 with a gzip stream cut after four bytes.
    The reader raises EOFError, which neither handler around the gzip
    calls catches: the run is the one call
    [update_file_status(task_id, "Failed due to an unexpected error")],
    and the task 7 ends with that status, not with Failed to
    decompress. *)
Theorem truncated_gzip_persists_unexpected c after_header url task_id s :
  let w := world_serving 200 gzip_truncated after_header in
  gzip_read w gzip_truncated = Raise EOFError
  ∧ download_and_process_file c w url task_id s
    = (Ok (), update_file_status task_id FAILED_UNEXPECTED None s)
  ∧ rows (download_and_process_file c w url 7 session_downloading).2
    = [row_of 7 FAILED_UNEXPECTED []].
Proof.
  intros w. split; [done|].
  assert (written (caught_in c) w url = (FAILED_UNEXPECTED, None)) as Hw.
  { by destruct c. }
  rewrite !download_and_process_file_one_write, Hw. split; reflexivity.
Qed.

Lemma failed_to_download_distinct (st : str) :
  st = COMPLETED ∨ st = FAILED_TO_DECOMPRESS ∨ st = FAILED_UNEXPECTED →
  st ≠ FAILED_TO_DOWNLOAD.
Proof. by intros [-> | [-> | ->]]. Qed.

Lemma written_after_read_distinct caught g :
  (written_after_read caught g).1 ≠ FAILED_TO_DOWNLOAD.
Proof.
  apply failed_to_download_distinct. unfold written_after_read.
  destruct g as [file_data|e].
  - destruct (extract_accession_numbers file_data); cbn; auto.
  - destruct (caught e); cbn; auto.
Qed.

(** C7, as the code has it: for a response whose body is read, the run
    is one call of [update_file_status], whose status is Failed to
    download exactly when the response status is not 200; with the
    status 200 the pipeline goes on to the gzip reader, and what it
    writes is decided by what the reader gives. *)
Theorem failed_to_download_iff_status_not_200 c w url response body :
  http_get w url = Ok response →
  Response.read response = Ok body →
  ∃ st acc,
    (∀ task_id s, download_and_process_file c w url task_id s
                  = (Ok (), update_file_status task_id st acc s))
    ∧ (st = FAILED_TO_DOWNLOAD ↔ Response.status response ≠ 200)
    ∧ (Response.status response = 200 →
       (st, acc) = written_after_read (caught_in c) (gzip_read w body)).
Proof.
  intros Hget Hread.
  exists (written (caught_in c) w url).1, (written (caught_in c) w url).2.
  split; [intros; apply download_and_process_file_one_write|].
  unfold written. rewrite Hget, Hread.
  destruct (Z.eqb_spec (Response.status response) 200) as [Heq|Hne].
  - split; [|by destruct (written_after_read _ _)].
    split; [|done]. intros Hst. by apply written_after_read_distinct in Hst.
  - done.
Qed.

Lemma failed_to_download_iff_status_not_200_witness :
  ∃ st acc,
    (∀ task_id s, download_and_process_file file_processing_py world_204
                    example_url task_id s
                  = (Ok (), update_file_status task_id st acc s))
    ∧ (st = FAILED_TO_DOWNLOAD ↔ 204 ≠ 200)
    ∧ (204 = 200 →
       (st, acc) = written_after_read isinstance_OSError
                     (gzip_read world_204 gzip_A)).
Proof.
  apply (failed_to_download_iff_status_not_200 file_processing_py world_204
           example_url (Response.mk 204 (Ok gzip_A)) gzip_A); reflexivity.
Defined.

(** C7 as stated fails: 204 is a success status, the body is a gzip
    stream that reads as [text_A], and both copies of the pipeline
    persist Failed to download without reading it. *)
Lemma success_status_204_persists_failed_to_download :
  http_success 204 = true
  ∧ gzip_read world_204 gzip_A = Ok text_A
  ∧ rows (download_and_process_file file_processing_py world_204 example_url 7
            session_downloading).2 = [row_of 7 FAILED_TO_DOWNLOAD []]
  ∧ rows (download_and_process_file routers_file_py world_204 example_url 7
            session_downloading).2 = [row_of 7 FAILED_TO_DOWNLOAD []].
Proof. repeat split; reflexivity. Qed.

(** A fetch that raises a ClientError also ends in Failed to download. *)
Lemma client_error_failed_to_download c w url task_id s :
  http_get w url = Raise ClientError →
  download_and_process_file c w url task_id s
  = (Ok (), update_file_status task_id FAILED_TO_DOWNLOAD None s).
Proof.
  intros Hget. rewrite download_and_process_file_one_write.
  unfold written. by rewrite Hget.
Qed.

End Persisted.

(** ** Writes on a terminal task *)

Section Terminal.

Implicit Types (task_id : Z) (st : str) (acc : option (list str))
  (s : Session) (r : File) (i : nat).

(** C4, as the code has it: [update_file_status] has no guard on the
    current status.  On a task whose status is terminal, in a
    transaction that does not fail, the call changes the first record of
    the task: its status becomes the new one; its list and its count
    become the list that was passed and the length of that list, or stay
    as they were when no list was passed; its uuid, task id, size, url
    and creation time stay as they were.  Every other row stays as it
    is. *)
Theorem update_file_status_overwrites_terminal task_id st acc s i r :
  first_by_task_id task_id (rows s) = Some (i, r) →
  terminal (status r) →
  (begin s).1 = false →
  ∃ r',
    rows (update_file_status task_id st acc s) = <[i := r']> (rows s)
    ∧ rows (update_file_status task_id st acc s) !! i = Some r'
    ∧ first_by_task_id task_id (rows (update_file_status task_id st acc s))
      = Some (i, r')
    ∧ status r' = st
    ∧ accession_list r'
      = match acc with Some l => l | None => accession_list r end
    ∧ result_count r'
      = match acc with
        | Some l => Z.of_nat (length l)
        | None => result_count r
        end
    ∧ uuid r' = uuid r
    ∧ download_task_id r' = download_task_id r
    ∧ size r' = size r
    ∧ url r' = url r
    ∧ created_at r' = created_at r
    ∧ ∀ j, j ≠ i →
           rows (update_file_status task_id st acc s) !! j = rows s !! j.
Proof.
  intros Hf _ Hb. exists (assign_status r st acc).
  rewrite (update_file_status_found _ _ _ _ i r Hb Hf).
  pose proof Hf as Hf0. apply list_find_Some in Hf0 as (Hi & Hid & _).
  split; [done|]. split.
  { apply list_lookup_insert_eq. by eapply lookup_lt_Some. }
  split.
  { apply (first_by_task_id_insert _ _ _ r); [done|].
    by rewrite assign_status_task_id. }
  split; [apply assign_status_status|].
  split; [by destruct acc|]. split; [by destruct acc|].
  split; [by destruct acc|]. split; [by destruct acc|].
  split; [by destruct acc|]. split; [by destruct acc|].
  split; [by destruct acc|].
  intros j Hne. by apply list_lookup_insert_ne.
Qed.

Lemma update_file_status_overwrites_terminal_witness :
  ∃ r',
    rows (update_file_status 7 FAILED_TO_DOWNLOAD (Some [py "B1"])
            session_completed)
    = <[0%nat := r']> (rows session_completed)
    ∧ rows (update_file_status 7 FAILED_TO_DOWNLOAD (Some [py "B1"])
              session_completed) !! 0%nat = Some r'
    ∧ first_by_task_id 7
        (rows (update_file_status 7 FAILED_TO_DOWNLOAD (Some [py "B1"])
                 session_completed)) = Some (0%nat, r')
    ∧ status r' = FAILED_TO_DOWNLOAD
    ∧ accession_list r' = [py "B1"]
    ∧ result_count r' = 1
    ∧ uuid r' = 1%N
    ∧ download_task_id r' = 7
    ∧ size r' = None
    ∧ url r' = example_url
    ∧ created_at r' = 0
    ∧ ∀ j, j ≠ 0%nat →
           rows (update_file_status 7 FAILED_TO_DOWNLOAD (Some [py "B1"])
                   session_completed) !! j = rows session_completed !! j.
Proof.
  apply (update_file_status_overwrites_terminal 7 FAILED_TO_DOWNLOAD
           (Some [py "B1"]) session_completed 0%nat
           (row_of 7 COMPLETED [py "A1"; py "A2"]));
    [reflexivity | left; reflexivity | reflexivity].
Defined.

(** C4 as stated fails: the task 7 is Completed, a further call with
    Failed to download goes through and changes its record. *)
Lemma terminal_status_overwritten :
  first_by_task_id 7 (rows session_completed)
  = Some (0%nat, row_of 7 COMPLETED [py "A1"; py "A2"])
  ∧ terminal (status (row_of 7 COMPLETED [py "A1"; py "A2"]))
  ∧ rows (update_file_status 7 FAILED_TO_DOWNLOAD None session_completed)
    = [row_of 7 FAILED_TO_DOWNLOAD [py "A1"; py "A2"]]
  ∧ rows (update_file_status 7 FAILED_TO_DOWNLOAD None session_completed)
    ≠ rows session_completed.
Proof. repeat split; [by left | done]. Qed.

End Terminal.

(** ** Creation of a task *)

Section Creation.

Implicit Types (w : World) (url : str) (task_id : Z) (s : Session).

(** C9: the task 7 is in the table and [random.randint] draws 7 again.
    The creation is answered with the id 7 and the status Downloading,
    no error is raised, and the table then holds two records of the task
    id 7. *)
Theorem duplicate_task_id_inserted :
  first_by_task_id 7 (rows session_downloading)
  = Some (0%nat, row_of 7 DOWNLOADING [])
  ∧ Routers.start_download world_A example_url 7 2%N 5 session_downloading
    = (Ok (FileDownloadResponse.mk 7 DOWNLOADING),
       mkSession [row_of 7 DOWNLOADING [];
                  mkFile 2%N 7 None example_url DOWNLOADING 0 [] 5] [])
  ∧ List.map download_task_id
      (rows (Routers.start_download world_A example_url 7 2%N 5
               session_downloading).2) = [7; 7].
Proof. repeat split. Qed.

End Creation.


(** ** The status query *)

Section StatusQuery.

Implicit Types (h : gmap loc (list str)) (o : FileObject) (row : File)
  (task_id : Z) (s : Session).

Lemma deref_alloc h v : deref (alloc h v).2 (alloc h v).1 = v.
Proof. unfold deref, alloc. cbn. by rewrite lookup_insert_eq. Qed.

Lemma alloc_fresh h v l : is_Some (h !! l) → (alloc h v).1 ≠ l.
Proof.
  intros Hl Heq. apply elem_of_dom in Hl. rewrite <- Heq in Hl.
  by apply is_fresh in Hl.
Qed.

(** The list of [display_accessions] is a new object: the list of the
    record is another object and keeps its elements. *)
Lemma display_accessions_fresh h o :
  is_Some (h !! o_accession_list o) →
  (display_accessions h o).1 ≠ o_accession_list o
  ∧ deref (display_accessions h o).2 (o_accession_list o)
    = deref h (o_accession_list o)
  ∧ deref (display_accessions h o).2 (display_accessions h o).1
    = take 20 (deref h (o_accession_list o)) ++ [py "..."].
Proof.
  intros Hl. unfold display_accessions.
  assert (match deref h (o_accession_list o) with
          | [] => alloc h []
          | xs => alloc h (take 20 xs)
          end = alloc h (take 20 (deref h (o_accession_list o)))) as ->.
  { by destruct (deref h (o_accession_list o)). }
  pose proof (alloc_fresh h (take 20 (deref h (o_accession_list o))) _ Hl)
    as Hne.
  destruct (alloc h (take 20 (deref h (o_accession_list o)))) as [d h1] eqn:Ha.
  cbn [fst snd] in *. split; [done|]. split.
  - unfold deref, append. rewrite lookup_alter_ne by done.
    unfold alloc in Ha. injection Ha as Hd' <-.
    by rewrite lookup_insert_ne by congruence.
  - unfold deref, append. rewrite lookup_alter_eq.
    unfold alloc in Ha. injection Ha as <- <-.
    by rewrite lookup_insert_eq.
Qed.

Lemma load_allocated row :
  (load ∅ row).2 !! o_accession_list (load ∅ row).1 = Some (accession_list row)
  ∧ o_row (load ∅ row).1 = row.
Proof. unfold load, alloc. cbn. by rewrite lookup_insert_eq. Qed.

(** The record flushed at the commit is the row that was loaded. *)
Lemma flush_loaded row :
  flush (display_accessions (load ∅ row).2 (load ∅ row).1).2 (load ∅ row).1
  = row.
Proof.
  destruct (load_allocated row) as [Hl Hrow].
  destruct (display_accessions_fresh (load ∅ row).2 (load ∅ row).1)
    as (_ & Hkeep & _); [by rewrite Hl|].
  unfold flush. rewrite Hkeep, Hrow. unfold deref. rewrite Hl. cbn.
  by destruct row.
Qed.

Lemma display_loaded row :
  deref (display_accessions (load ∅ row).2 (load ∅ row).1).2
    (display_accessions (load ∅ row).2 (load ∅ row).1).1
  = take 20 (accession_list row) ++ [py "..."].
Proof.
  destruct (load_allocated row) as [Hl Hrow].
  destruct (display_accessions_fresh (load ∅ row).2 (load ∅ row).1)
    as (_ & _ & Hd); [by rewrite Hl|].
  rewrite Hd. unfold deref. by rewrite Hl.
Qed.

(** [check_status] by cases. *)
Lemma check_status_unfold task_id s :
  Routers.check_status task_id s =
  match begin s with
  | (true, s') =>
      (Raise (HTTPException 500 (py "Failed to retrieve status")), s')
  | (false, s') =>
      match first_by_task_id task_id (rows s') with
      | None => (Raise (HTTPException 404 (py "Task not found")), s')
      | Some (i, row) =>
          (Ok (FileStatusResponse.mk (status row) (result_count row)
                 (take 20 (accession_list row) ++ [py "..."])), s')
      end
  end.
Proof.
  unfold Routers.check_status. destruct (begin s) as [[] s']; [done|].
  destruct (first_by_task_id task_id (rows s')) as [[i row]|] eqn:Hf; [|done].
  pose proof (flush_loaded row) as Hflush.
  pose proof (display_loaded row) as Hdisp.
  destruct (load_allocated row) as [_ Hrow].
  destruct (load ∅ row) as [file_record h]. cbn [fst snd] in *.
  destruct (display_accessions h file_record) as [display h'].
  cbn [fst snd] in *. rewrite Hflush, Hdisp, Hrow. f_equal.
  unfold set_rows. apply list_find_Some in Hf as (Hi & _).
  rewrite list_insert_id by done. by destruct s'.
Qed.

Lemma check_status_rows task_id s :
  rows (Routers.check_status task_id s).2 = rows s.
Proof.
  rewrite check_status_unfold. pose proof (begin_rows s) as Hr.
  destruct (begin s) as [[] s']; [done|]. cbn [snd] in Hr.
  by destruct (first_by_task_id task_id (rows s')) as [[i row]|].
Qed.

(** C6: the task 7 is stored with the two accessions A1 and A2, and the
    reply to the status query lists A1, A2 and the marker; for a task with
    no accession the reply lists the marker alone. *)
Theorem check_status_marks_short_list :
  Routers.check_status 7 session_completed
  = (Ok (FileStatusResponse.mk COMPLETED 2 [py "A1"; py "A2"; py "..."]),
     session_completed)
  ∧ Routers.check_status 7 session_downloading
    = (Ok (FileStatusResponse.mk DOWNLOADING 0 [py "..."]),
       session_downloading).
Proof. rewrite !check_status_unfold. split; reflexivity. Qed.

(** C10: a status query leaves every row of the table as it was.  The
    marker is appended to the list object made by the slice (or the new
    empty list), which is not the list object of the record, and the list
    of the record keeps its elements up to the commit. *)
Theorem check_status_leaves_rows task_id s row :
  rows (Routers.check_status task_id s).2 = rows s
  ∧ (display_accessions (load ∅ row).2 (load ∅ row).1).1
    ≠ o_accession_list (load ∅ row).1
  ∧ deref (display_accessions (load ∅ row).2 (load ∅ row).1).2
      (o_accession_list (load ∅ row).1) = accession_list row.
Proof.
  split; [apply check_status_rows|].
  destruct (load_allocated row) as [Hl _].
  destruct (display_accessions_fresh (load ∅ row).2 (load ∅ row).1)
    as (Hne & Hkeep & _); [by rewrite Hl|].
  split; [done|]. rewrite Hkeep. unfold deref. by rewrite Hl.
Qed.

End StatusQuery.


(** ** The count and the list of a record *)

Section Invariant.

Context (w : World).
Implicit Types (task_id : Z) (st : str) (acc : option (list str))
  (s : Session) (r : File).

Lemma assign_status_consistent r st acc :
  consistent r → consistent (assign_status r st acc).
Proof. by destruct acc. Qed.

(** What a call of [update_file_status] does to the row at a position: the
    list and the count are left as they were, or both are set from the
    list that was passed. *)
Lemma update_file_status_row task_id st acc s j r' :
  rows (update_file_status task_id st acc s) !! j = Some r' →
  ∃ r, rows s !! j = Some r
       ∧ ((accession_list r' = accession_list r
           ∧ result_count r' = result_count r)
          ∨ (acc = Some (accession_list r')
             ∧ result_count r' = Z.of_nat (length (accession_list r')))).
Proof.
  destruct (begin s).1 eqn:Hb.
  { rewrite update_file_status_fault by done. eauto. }
  destruct (first_by_task_id task_id (rows s)) as [[i r0]|] eqn:Hf.
  - rewrite (update_file_status_found _ _ _ _ i r0 Hb Hf).
    apply list_find_Some in Hf as (Hi & _).
    destruct (decide (i = j)) as [->|Hne].
    + rewrite list_lookup_insert_eq by by eapply lookup_lt_Some.
      intros [= <-]. exists r0. split; [done|]. destruct acc; cbn; eauto.
    + rewrite list_lookup_insert_ne by done. eauto.
  - rewrite update_file_status_missing by done. eauto.
Qed.

Lemma update_file_status_consistent task_id st acc s :
  Forall consistent (rows s) →
  Forall consistent (rows (update_file_status task_id st acc s)).
Proof.
  intros Hall. apply Forall_lookup. intros j r' Hj.
  destruct (update_file_status_row _ _ _ _ _ _ Hj) as (r & Hr & Hcase).
  pose proof (Forall_lookup_1 _ _ _ _ Hall Hr) as Hc. unfold consistent in *.
  destruct Hcase as [[-> ->]|[_ ->]]; done.
Qed.

Lemma start_download_consistent request_url task_id new_uuid now s :
  Forall consistent (rows s) →
  Forall consistent
    (rows (Routers.start_download w request_url task_id new_uuid now s).2).
Proof.
  intros Hall. unfold Routers.start_download.
  destruct (http_head w request_url) as [response|[]]; [|done..].
  destruct (negb (Response.status response =? 200)); [done|].
  pose proof (begin_rows s) as Hr. destruct (begin s) as [[] s']; cbn in Hr.
  { cbn. by rewrite Hr. }
  destruct (existsb _ (rows s')); cbn; rewrite Hr; [done|].
  apply Forall_app. split; [done|]. by apply Forall_singleton.
Qed.

(** Every step keeps the count equal to the length in every row. *)
Lemma step_consistent s s' :
  step w s s' → Forall consistent (rows s) → Forall consistent (rows s').
Proof.
  intros Hstep Hall. destruct Hstep.
  - by apply start_download_consistent.
  - by rewrite check_status_rows.
  - by apply update_file_status_consistent.
  - rewrite download_and_process_file_one_write.
    by apply update_file_status_consistent.
Qed.

Lemma reachable_consistent s : reachable w s → Forall consistent (rows s).
Proof.
  intros [fs Hrun].
  assert (Forall consistent (rows (mkSession [] fs))) as Hinit by constructor.
  induction Hrun as [|s0 s1 s2 Hstep _ IH]; [done|].
  apply IH. by eapply step_consistent.
Qed.

(** C8: in every session the service can reach, every record (so every
    completed one) has its result count equal to the length of its
    accession list; and a call of [update_file_status] leaves the list and
    the count of a row as they were or sets both, the count to the length
    of the list. *)
Theorem result_count_is_length s :
  reachable w s →
  (∀ r, r ∈ rows s →
        result_count r = Z.of_nat (length (accession_list r)))
  ∧ ∀ task_id st acc j r',
      rows (update_file_status task_id st acc s) !! j = Some r' →
      ∃ r, rows s !! j = Some r
           ∧ ((accession_list r' = accession_list r
               ∧ result_count r' = result_count r)
              ∨ (acc = Some (accession_list r')
                 ∧ result_count r' = Z.of_nat (length (accession_list r')))).
Proof.
  intros Hreach. split.
  - intros r Hin. apply reachable_consistent in Hreach.
    by apply (proj1 (Forall_forall _ _) Hreach).
  - intros task_id st acc j r'. apply update_file_status_row.
Qed.

End Invariant.

Lemma result_count_is_length_witness :
  (∀ r, r ∈ rows session_completed →
        result_count r = Z.of_nat (length (accession_list r)))
  ∧ ∀ task_id st acc j r',
      rows (update_file_status task_id st acc session_completed) !! j = Some r' →
      ∃ r, rows session_completed !! j = Some r
           ∧ ((accession_list r' = accession_list r
               ∧ result_count r' = result_count r)
              ∨ (acc = Some (accession_list r')
                 ∧ result_count r' = Z.of_nat (length (accession_list r')))).
Proof.
  apply (result_count_is_length world_A session_completed).
  exists []. eapply rtc_l.
  { apply (step_start_download world_A example_url 7 1%N 0). }
  eapply rtc_l.
  { apply (step_pipeline world_A routers_file_py example_url 7). }
  apply rtc_refl.
Defined.



(** * Further properties *)

(** ** Lines and tokens *)

Section Tokens.

Implicit Types (t cur s : str) (c : char).

Lemma is_linebreak_isspace c : is_linebreak c = true → isspace c = true.
Proof.
  unfold is_linebreak. cbn [existsb]. intros H.
  repeat (apply orb_true_iff in H as [H|H]); try discriminate;
    apply N.eqb_eq in H; by subst c.
Qed.

Lemma whitespace_free_linebreak_free t :
  whitespace_free t = true → linebreak_free t = true.
Proof.
  unfold whitespace_free, linebreak_free. rewrite !forallb_forall.
  intros H c Hin. specialize (H c Hin).
  destruct (is_linebreak c) eqn:Hc; [|done].
  by rewrite (is_linebreak_isspace c Hc) in H.
Qed.

Lemma whitespace_free_rev t : whitespace_free (rev t) = whitespace_free t.
Proof.
  unfold whitespace_free. induction t as [|c t IH]; [done|].
  cbn [rev]. rewrite forallb_app, IH. cbn. by rewrite andb_true_r, andb_comm.
Qed.

(** A word without whitespace is read into the current token whole. *)
Lemma split_from_token t cur s :
  whitespace_free t = true →
  split_from cur (t ++ s) = split_from (rev t ++ cur) s.
Proof.
  revert cur. induction t as [|c t IH]; intros cur Ht; [done|].
  change (negb (isspace c) && whitespace_free t = true) in Ht.
  apply andb_true_iff in Ht as [Hc Ht].
  apply negb_true_iff in Hc. cbn [app split_from]. rewrite Hc.
  rewrite IH by done. cbn [rev]. by rewrite <- app_assoc.
Qed.

(** A line without a line break inside, ended by a line feed, is one line
    of [splitlines]. *)
Lemma splitlines_from_line t cur s :
  linebreak_free t = true →
  splitlines_from cur (t ++ LF :: s) = (rev cur ++ t) :: splitlines_from [] s.
Proof.
  revert cur. induction t as [|c t IH]; intros cur Ht.
  - cbn. by rewrite app_nil_r.
  - change (negb (is_linebreak c) && linebreak_free t = true) in Ht.
    apply andb_true_iff in Ht as [Hc Ht].
    apply negb_true_iff in Hc. cbn [app splitlines_from]. rewrite Hc.
    rewrite IH by done. cbn [rev]. by rewrite <- app_assoc.
Qed.

(** Every token of [split] is a non-empty word without whitespace. *)
Lemma split_from_tokens s cur :
  whitespace_free cur = true →
  Forall (λ t, t ≠ [] ∧ whitespace_free t = true) (split_from cur s).
Proof.
  revert cur. induction s as [|c s IH]; intros cur Hcur.
  - cbn. destruct cur as [|c0 cur]; [constructor|].
    repeat constructor; [|by rewrite whitespace_free_rev].
    cbn [rev]. by destruct (rev cur).
  - cbn [split_from]. destruct (isspace c) eqn:Hc.
    + destruct cur as [|c0 cur]; [by apply IH|].
      constructor; [|by apply IH]. split; [|by rewrite whitespace_free_rev].
      cbn [rev]. by destruct (rev cur).
    + apply IH. cbn. by rewrite Hc.
Qed.

End Tokens.

(** ** More on the extraction *)

Section ExtractionMore.

Implicit Types (lines acc ids : list str) (line tok : str)
  (file_data : str) (es : list entry).

Lemma extract_loop_Raise_inv lines acc e :
  extract_loop lines acc = Raise e →
  ∃ line, In line (List.filter (λ line, startswith line ACCESSION) lines)
          ∧ second_token line = None.
Proof.
  revert acc. induction lines as [|l lines IH]; intros acc;
    cbn [List.filter extract_loop]; [done|].
  destruct (startswith l ACCESSION) eqn:Hp.
  - destruct (split l !! 1%nat) as [tok|] eqn:Htok.
    + intros Hr. destruct (IH _ Hr) as (line & Hin & Hnone).
      exists line. split; [by right|done].
    + intros _. exists l. split; [by left|done].
  - apply IH.
Qed.

(** X1: the extraction raises exactly when some line that begins with
    ACCESSION has no second token, and then it raises IndexError. *)
Theorem extract_accession_numbers_raises_iff file_data e :
  extract_accession_numbers file_data = Raise e
  ↔ e = IndexError
    ∧ ∃ line, In line (accession_lines file_data) ∧ second_token line = None.
Proof.
  split.
  - intros Hr. split; [by eapply extract_raises_IndexError|].
    by eapply extract_loop_Raise_inv.
  - intros [-> (line & Hin & Hnone)].
    by eapply extract_raises_on_missing_token.
Qed.

(** Every identifier of the result is the second token of some line. *)
Lemma extract_loop_tokens (P : str → Prop) lines acc ids :
  (∀ line tok, second_token line = Some tok → P tok) →
  Forall P acc →
  extract_loop lines acc = Ok ids →
  Forall P ids.
Proof.
  intros HP. revert acc. induction lines as [|l lines IH]; intros acc Hacc;
    cbn [extract_loop]; [by intros [= <-]|].
  destruct (startswith l ACCESSION); [|by apply IH].
  destruct (split l !! 1%nat) as [tok|] eqn:Htok; [|done].
  apply IH. apply Forall_app. split; [done|].
  apply Forall_singleton. by apply (HP l).
Qed.

(** X2: every identifier that the extraction returns is a non-empty word
    without any whitespace character. *)
Theorem extract_accession_numbers_identifiers file_data ids :
  extract_accession_numbers file_data = Ok ids →
  Forall (λ id, id ≠ [] ∧ whitespace_free id = true) ids.
Proof.
  apply extract_loop_tokens; [|constructor].
  intros line tok Htok. unfold second_token, split in Htok.
  pose proof (split_from_tokens line [] eq_refl) as Hall.
  by apply (Forall_lookup_1 _ _ _ _ Hall Htok).
Qed.

Lemma extract_accession_numbers_identifiers_witness :
  Forall (λ id, id ≠ [] ∧ whitespace_free id = true) [py "A1"; py "A2"].
Proof.
  apply (extract_accession_numbers_identifiers text_A). reflexivity.
Defined.

Lemma startswith_app (p s : str) : startswith (p ++ s) p = true.
Proof.
  induction p as [|c p IH]; [by destruct s|]. cbn. by rewrite N.eqb_refl, IH.
Qed.

Lemma split_accession_line (id : str) :
  id ≠ [] → whitespace_free id = true →
  split (ACCESSION ++ [32%N] ++ id) = [ACCESSION; id].
Proof.
  intros Hne Hid. unfold split.
  rewrite (split_from_token ACCESSION) by reflexivity.
  rewrite app_nil_r. cbn [app].
  change (split_from (rev ACCESSION) (32%N :: id))
    with (rev (rev ACCESSION) :: split_from [] id).
  rewrite rev_involutive. f_equal.
  rewrite <- (app_nil_r id) at 1. rewrite split_from_token by done.
  rewrite app_nil_r. cbn [split_from].
  destruct (rev id) as [|c t] eqn:Hrev.
  - apply (f_equal (@rev char)) in Hrev. rewrite rev_involutive in Hrev.
    by subst id.
  - by rewrite <- Hrev, rev_involutive.
Qed.

Lemma render_entry_linebreak_free (e : entry) :
  well_formed_entry e → linebreak_free (render_entry e) = true.
Proof.
  destruct e as [id|line]; cbn [well_formed_entry render_entry].
  - intros [_ Hid]. apply whitespace_free_linebreak_free in Hid.
    unfold linebreak_free in *. rewrite !forallb_app.
    apply andb_true_iff. split; [reflexivity|exact Hid].
  - by intros [Hl _].
Qed.

Lemma splitlines_render es :
  Forall well_formed_entry es →
  splitlines (render es) = List.map render_entry es.
Proof.
  unfold splitlines, render. induction 1 as [|e es He _ IH]; [done|].
  cbn [List.map List.concat]. rewrite <- !app_assoc. cbn [app].
  rewrite splitlines_from_line by by apply render_entry_linebreak_free.
  by rewrite IH.
Qed.

Lemma extract_loop_render es acc :
  Forall well_formed_entry es →
  extract_loop (List.map render_entry es) acc = Ok (acc ++ accessions es).
Proof.
  intros Hall. revert acc. induction Hall as [|e es He _ IH]; intros acc.
  - cbn. by rewrite app_nil_r.
  - cbn [List.map extract_loop]. destruct e as [id|line];
      cbn [well_formed_entry render_entry] in *.
    + destruct He as [Hne Hid]. rewrite startswith_app.
      rewrite split_accession_line by done. cbn [lookup list_lookup].
      rewrite IH. unfold accessions. cbn [List.map List.concat].
      by rewrite <- app_assoc.
    + destruct He as [_ Hp]. rewrite Hp. by rewrite IH.
Qed.

(** X3: a text written line by line is read back: the extraction of the
    rendering of a list of entries returns the identifiers of its
    accession entries, in their order. *)
Theorem extract_accession_numbers_render es :
  Forall well_formed_entry es →
  extract_accession_numbers (render es) = Ok (accessions es).
Proof.
  intros Hall. unfold extract_accession_numbers.
  rewrite splitlines_render by done. by rewrite extract_loop_render.
Qed.

Lemma extract_accession_numbers_render_witness :
  extract_accession_numbers
    (render [Accession (py "A1"); Other (py "IGNORE"); Accession (py "A2")])
  = Ok (accessions
          [Accession (py "A1"); Other (py "IGNORE"); Accession (py "A2")]).
Proof.
  apply (extract_accession_numbers_render
           [Accession (py "A1"); Other (py "IGNORE"); Accession (py "A2")]).
  repeat constructor; discriminate.
Defined.

End ExtractionMore.

(** ** Extraction of a text in two parts *)

Section Chunks.

Implicit Types (cur : str) (lines acc : list str).

(** Cutting a text after a line feed cuts its list of lines. *)
Lemma splitlines_from_cut (t1 : str) cur (t2 : str) :
  splitlines_from cur (t1 ++ LF :: t2)
  = splitlines_from cur (t1 ++ [LF]) ++ splitlines_from [] t2.
Proof.
  remember (length t1) as n eqn:Hn. revert t1 cur Hn.
  induction n as [n IH] using lt_wf_ind. intros t1 cur ->.
  destruct t1 as [|c t1]; [reflexivity|].
  cbn [app splitlines_from]. destruct (is_linebreak c).
  - rewrite <- app_comm_cons. f_equal. destruct (c =? CR)%N.
    + destruct t1 as [|c' t1]; [reflexivity|]. cbn [app].
      destruct (c' =? LF)%N.
      * eapply IH; [|reflexivity]. cbn. lia.
      * apply (IH (length (c' :: t1)) ltac:(cbn; lia) (c' :: t1) []).
        reflexivity.
    + eapply IH; [|reflexivity]. cbn. lia.
  - eapply IH; [|reflexivity]. cbn. lia.
Qed.

Lemma extract_loop_app_lines (l1 l2 : list str) acc :
  extract_loop (l1 ++ l2) acc
  = match extract_loop l1 acc with
    | Ok acc' => extract_loop l2 acc'
    | Raise e => Raise e
    end.
Proof.
  revert acc. induction l1 as [|line l1 IH]; intros acc; [done|].
  cbn [app extract_loop]. destruct (startswith line ACCESSION); [|apply IH].
  destruct (split line !! 1%nat); [apply IH|done].
Qed.

Lemma extract_loop_acc lines acc :
  extract_loop lines acc
  = match extract_loop lines [] with
    | Ok ids => Ok (acc ++ ids)
    | Raise e => Raise e
    end.
Proof.
  revert acc. induction lines as [|line lines IH]; intros acc.
  - cbn. by rewrite app_nil_r.
  - cbn [extract_loop]. destruct (startswith line ACCESSION); [|apply IH].
    destruct (split line !! 1%nat) as [tok|]; [|done].
    rewrite (IH (acc ++ [tok])), (IH ([] ++ [tok])).
    destruct (extract_loop lines []); [|done]. by rewrite <- app_assoc.
Qed.

(** X4: a text cut after a line feed can be extracted part by part: the
    result is the identifiers of the first part followed by those of the
    second, and an IndexError of either part is the IndexError of the
    whole, the first part first. *)
Theorem extract_accession_numbers_cut (t1 t2 : str) :
  extract_accession_numbers (t1 ++ LF :: t2)
  = match extract_accession_numbers (t1 ++ [LF]) with
    | Raise e => Raise e
    | Ok ids1 =>
        match extract_accession_numbers t2 with
        | Raise e => Raise e
        | Ok ids2 => Ok (ids1 ++ ids2)
        end
    end.
Proof.
  unfold extract_accession_numbers, splitlines.
  rewrite splitlines_from_cut, extract_loop_app_lines.
  destruct (extract_loop (splitlines_from [] (t1 ++ [LF])) []) as [ids1|e];
    [|done].
  apply extract_loop_acc.
Qed.

End Chunks.

(** ** More on the pipeline *)

Section PipelineMore.

Implicit Types (c : source_file) (w : World) (url : str) (task_id : Z)
  (s : Session).

Lemma written_terminal caught w url :
  terminal (written caught w url).1
  ∧ (is_Some (written caught w url).2 ↔ (written caught w url).1 = COMPLETED).
Proof.
  assert (∀ st, terminal st → st ≠ COMPLETED →
            terminal (st, @None (list str)).1
            ∧ (is_Some (st, @None (list str)).2 ↔ (st, @None (list str)).1 = COMPLETED))
    as Hnone.
  { intros st Ht Hne. split; [done|]. cbn. split; [by intros [? [=]]|done]. }
  assert (terminal FAILED_TO_DOWNLOAD) as Hd by (right; by left).
  assert (terminal FAILED_TO_DECOMPRESS) as Hz by (right; right; by left).
  assert (terminal FAILED_UNEXPECTED) as Hu by (right; right; by right).
  unfold written, written_after_read.
  destruct (http_get w url) as [response|[]]; [|by apply Hnone..].
  destruct (Response.status response =? 200); [|by apply Hnone].
  destruct (Response.read response) as [body|[]]; [|by apply Hnone..].
  destruct (gzip_read w body) as [file_data|e].
  - destruct (extract_accession_numbers file_data) as [ids|e];
      [|by apply Hnone].
    split; [by left|]. cbn. split; [done|eauto].
  - destruct (caught e); by apply Hnone.
Qed.

(** X5: a run of the pipeline, in either file, raises nothing and is
    exactly one call of [update_file_status]; the status it writes is a
    terminal one, and a list is passed exactly with the status
    Completed. *)
Theorem download_and_process_file_writes_once c w url task_id :
  ∃ st acc,
    (∀ s, download_and_process_file c w url task_id s
          = (Ok (), update_file_status task_id st acc s))
    ∧ terminal st
    ∧ (is_Some acc ↔ st = COMPLETED).
Proof.
  exists (written (caught_in c) w url).1, (written (caught_in c) w url).2.
  split; [intros s; apply download_and_process_file_one_write|].
  apply written_terminal.
Qed.

(** X6: the two copies of the pipeline do the same on every input, except
    when the gzip reader raises an OSError that is not a BadGzipFile:
    then file_processing.py writes Failed to decompress and
    routers/file.py writes Failed due to an unexpected error. *)
Theorem copies_differ_only_on_other_OSError w url task_id s :
  download_and_process_file file_processing_py w url task_id s
  = download_and_process_file routers_file_py w url task_id s
  ∨ (∃ response body,
       http_get w url = Ok response
       ∧ Response.status response = 200
       ∧ Response.read response = Ok body
       ∧ gzip_read w body = Raise OtherOSError
       ∧ download_and_process_file file_processing_py w url task_id s
         = (Ok (), update_file_status task_id FAILED_TO_DECOMPRESS None s)
       ∧ download_and_process_file routers_file_py w url task_id s
         = (Ok (), update_file_status task_id FAILED_UNEXPECTED None s)).
Proof.
  rewrite !download_and_process_file_one_write. unfold written.
  destruct (http_get w url) as [response|e] eqn:Hget; [|by left].
  destruct (Z.eqb_spec (Response.status response) 200) as [Hst|]; [|by left].
  destruct (Response.read response) as [body|e] eqn:Hread; [|by left].
  unfold written_after_read.
  destruct (gzip_read w body) as [file_data|[]] eqn:Hgz; try by left.
  right. by exists response, body.
Qed.

(** X7: a ClientError of the GET, or of the reading of the body of a 200
    response, is persisted as Failed to download. *)
Theorem client_error_persists_failed_to_download c w url task_id s :
  http_get w url = Raise ClientError
  ∨ (∃ response, http_get w url = Ok response
                 ∧ Response.status response = 200
                 ∧ Response.read response = Raise ClientError) →
  download_and_process_file c w url task_id s
  = (Ok (), update_file_status task_id FAILED_TO_DOWNLOAD None s).
Proof.
  intros H. rewrite download_and_process_file_one_write. unfold written.
  destruct H as [->|(response & -> & -> & ->)]; reflexivity.
Qed.

Lemma client_error_persists_failed_to_download_witness :
  download_and_process_file routers_file_py
    (mkWorld (λ _, Raise ClientError) (λ _, Raise ClientError) (λ _, Ok []))
    example_url 7 session_downloading
  = (Ok (), update_file_status 7 FAILED_TO_DOWNLOAD None session_downloading).
Proof.
  apply (client_error_persists_failed_to_download routers_file_py
           (mkWorld (λ _, Raise ClientError) (λ _, Raise ClientError)
              (λ _, Ok []))).
  left. reflexivity.
Defined.

(** X8: a 200 response whose body does not begin with the two gzip magic
    bytes is persisted as Failed to decompress, in both files. *)
Theorem bad_magic_persists_failed_to_decompress c after_header
    (a b : byte) (rest : list byte) url task_id s :
  Byte.eqb a x1f && Byte.eqb b x8b = false →
  download_and_process_file c (world_serving 200 (a :: b :: rest) after_header)
    url task_id s
  = (Ok (), update_file_status task_id FAILED_TO_DECOMPRESS None s).
Proof.
  intros Hm.
  apply (bad_gzip_file_failed_to_decompress c _ url task_id
           (Response.mk 200 (Ok (a :: b :: rest))) (a :: b :: rest));
    [reflexivity..|].
  by apply gzip_bad_magic.
Qed.

Lemma bad_magic_persists_failed_to_decompress_witness :
  download_and_process_file file_processing_py
    (world_serving 200 [x68; x65; x6c; x6c; x6f] (λ _, Ok []))
    example_url 7 session_downloading
  = (Ok (), update_file_status 7 FAILED_TO_DECOMPRESS None session_downloading).
Proof.
  apply (bad_magic_persists_failed_to_decompress file_processing_py
           (λ _, Ok []) x68 x65 [x6c; x6c; x6f]).
  reflexivity.
Defined.

(** X9: a run whose transaction fails, or whose task has no record,
    leaves every row of the table as it was, whatever was fetched. *)
Theorem download_and_process_file_no_write c w url task_id s :
  (begin s).1 = true ∨ first_by_task_id task_id (rows s) = None →
  rows (download_and_process_file c w url task_id s).2 = rows s.
Proof.
  rewrite download_and_process_file_one_write. cbn [snd].
  intros [Hb|Hf].
  - by apply update_file_status_fault.
  - by apply update_file_status_missing.
Qed.

Lemma download_and_process_file_no_write_witness :
  rows (download_and_process_file routers_file_py world_A example_url 8
          session_downloading).2 = rows session_downloading.
Proof.
  apply (download_and_process_file_no_write routers_file_py world_A
           example_url 8 session_downloading).
  right. reflexivity.
Defined.

End PipelineMore.

(** ** More on the table *)

Section TableMore.

Context (w : World).
Implicit Types (task_id : Z) (st : str) (acc : option (list str))
  (s : Session) (r : File) (i j : nat).

Lemma same_task_refl r : same_task r r.
Proof. by repeat split. Qed.

Lemma same_task_trans (r1 r2 r3 : File) :
  same_task r1 r2 → same_task r2 r3 → same_task r1 r3.
Proof.
  unfold same_task. intros (-> & -> & -> & -> & ->) (-> & -> & -> & -> & ->).
  by repeat split.
Qed.

Lemma same_task_assign_status r st acc : same_task r (assign_status r st acc).
Proof. destruct acc; by repeat split. Qed.

Lemma update_file_status_at task_id st acc s j r :
  rows s !! j = Some r →
  length (rows (update_file_status task_id st acc s)) = length (rows s)
  ∧ ∃ r', rows (update_file_status task_id st acc s) !! j = Some r'
          ∧ same_task r r'
          ∧ (first_by_task_id task_id (rows s) ≠ Some (j, r) → r' = r).
Proof.
  intros Hj. destruct (begin s).1 eqn:Hb.
  { rewrite update_file_status_fault by done.
    split; [done|]. exists r. by split; [|split; [apply same_task_refl|]]. }
  destruct (first_by_task_id task_id (rows s)) as [[i r0]|] eqn:Hf.
  - rewrite (update_file_status_found _ _ _ _ i r0 Hb Hf).
    split; [apply length_insert|].
    destruct (decide (i = j)) as [->|Hne].
    + apply list_find_Some in Hf as (Hi & _).
      assert (r0 = r) as -> by congruence.
      exists (assign_status r st acc).
      rewrite list_lookup_insert_eq by by eapply lookup_lt_Some.
      split; [done|]. split; [apply same_task_assign_status|done].
    + exists r. rewrite list_lookup_insert_ne by done.
      by split; [|split; [apply same_task_refl|]].
  - rewrite update_file_status_missing by done.
    split; [done|]. exists r. by split; [|split; [apply same_task_refl|]].
Qed.

(** X10: a call of [update_file_status] keeps the number of rows; the row
    at each position stays the same task (uuid, task id, size, url and
    creation time), and every row other than the first one of the task id
    is left exactly as it was. *)
Theorem update_file_status_frame task_id st acc s j r :
  rows s !! j = Some r →
  length (rows (update_file_status task_id st acc s)) = length (rows s)
  ∧ ∃ r', rows (update_file_status task_id st acc s) !! j = Some r'
          ∧ same_task r r'
          ∧ (first_by_task_id task_id (rows s) ≠ Some (j, r) → r' = r).
Proof. apply update_file_status_at. Qed.

Lemma update_file_status_frame_witness :
  length (rows (update_file_status 7 FAILED_TO_DOWNLOAD None session_completed))
  = length (rows session_completed)
  ∧ ∃ r', rows (update_file_status 7 FAILED_TO_DOWNLOAD None session_completed)
            !! 0%nat = Some r'
          ∧ same_task (row_of 7 COMPLETED [py "A1"; py "A2"]) r'
          ∧ (first_by_task_id 7 (rows session_completed)
             ≠ Some (0%nat, row_of 7 COMPLETED [py "A1"; py "A2"]) →
             r' = row_of 7 COMPLETED [py "A1"; py "A2"]).
Proof.
  apply (update_file_status_frame 7 FAILED_TO_DOWNLOAD None session_completed
           0%nat (row_of 7 COMPLETED [py "A1"; py "A2"])).
  reflexivity.
Defined.

(** The rows after [start_download]: the rows before, with at most one
    record appended, whose uuid is new. *)
Lemma start_download_rows request_url task_id new_uuid now s :
  rows (Routers.start_download w request_url task_id new_uuid now s).2 = rows s
  ∨ (existsb (λ r, (uuid r =? new_uuid)%N) (rows s) = false
     ∧ rows (Routers.start_download w request_url task_id new_uuid now s).2
       = rows s ++ [mkFile new_uuid task_id None request_url DOWNLOADING 0 [] now]).
Proof.
  unfold Routers.start_download.
  destruct (http_head w request_url) as [response|[]]; [|by left..].
  destruct (negb (Response.status response =? 200)); [by left|].
  pose proof (begin_rows s) as Hr. destruct (begin s) as [[] s']; cbn in Hr.
  { left. cbn. by rewrite Hr. }
  destruct (existsb _ (rows s')) eqn:He; [left; by cbn|].
  right. rewrite Hr in He. split; [done|]. cbn. by rewrite Hr.
Qed.

Lemma step_keeps_rows s s' j r :
  step w s s' → rows s !! j = Some r →
  ∃ r', rows s' !! j = Some r' ∧ same_task r r'.
Proof.
  intros Hstep Hj.
  assert (∀ task_id st acc,
            ∃ r', rows (update_file_status task_id st acc s) !! j = Some r'
                  ∧ same_task r r') as Hupd.
  { intros task_id st acc.
    destruct (update_file_status_at task_id st acc s j r Hj)
      as (_ & r' & Hr' & Hsame & _). eauto. }
  destruct Hstep.
  - destruct (start_download_rows request_url task_id new_uuid now s)
      as [->|[_ ->]].
    + exists r. split; [done|apply same_task_refl].
    + exists r. split; [by apply lookup_app_l_Some|apply same_task_refl].
  - rewrite check_status_rows. exists r. split; [done|apply same_task_refl].
  - apply Hupd.
  - rewrite download_and_process_file_one_write. apply Hupd.
Qed.

(** X11: along any run, no record is ever deleted or moved, and the
    fields set at its creation (uuid, task id, size, url, creation time)
    never change. *)
Theorem run_keeps_rows s s' j r :
  rtc (step w) s s' → rows s !! j = Some r →
  ∃ r', rows s' !! j = Some r' ∧ same_task r r'.
Proof.
  intros Hrun. revert r. induction Hrun as [s|s s1 s2 Hstep _ IH]; intros r Hj.
  - exists r. split; [done|apply same_task_refl].
  - destruct (step_keeps_rows _ _ _ _ Hstep Hj) as (r1 & Hr1 & Hsame1).
    destruct (IH _ Hr1) as (r2 & Hr2 & Hsame2).
    exists r2. split; [done|]. by eapply same_task_trans.
Qed.

End TableMore.

Lemma run_keeps_rows_witness :
  ∃ r', rows session_completed !! 0%nat = Some r'
        ∧ same_task (row_of 7 DOWNLOADING []) r'.
Proof.
  apply (run_keeps_rows world_A session_downloading session_completed 0%nat
           (row_of 7 DOWNLOADING [])); [|reflexivity].
  eapply rtc_l.
  { apply (step_pipeline world_A routers_file_py example_url 7). }
  apply rtc_refl.
Defined.

(** ** Keys of the table *)

Section Keys.

Context (w : World).
Implicit Types (task_id : Z) (st : str) (acc : option (list str))
  (s : Session) (r : File).

Lemma update_file_status_uuids task_id st acc s :
  uuid <$> rows (update_file_status task_id st acc s) = uuid <$> rows s.
Proof.
  apply list_eq. intros j. rewrite !list_lookup_fmap.
  destruct (rows s !! j) as [r|] eqn:Hj.
  - destruct (update_file_status_at task_id st acc s j r Hj)
      as (_ & r' & -> & (Hu & _) & _). cbn. by rewrite Hu.
  - apply lookup_ge_None in Hj.
    assert (length (rows (update_file_status task_id st acc s))
            = length (rows s)) as Hlen.
    { destruct (rows s) as [|r0 l] eqn:Hrows.
      - destruct (begin s).1 eqn:Hb.
        + by rewrite update_file_status_fault, Hrows.
        + rewrite update_file_status_missing; by rewrite Hrows.
      - rewrite <- Hrows.
        by destruct (update_file_status_at task_id st acc s 0%nat r0)
          as [Hl _]; [by rewrite Hrows|]. }
    rewrite (proj2 (lookup_ge_None _ j)) by lia. done.
Qed.

Lemma step_uuids s s' :
  step w s s' → NoDup (uuid <$> rows s) → NoDup (uuid <$> rows s').
Proof.
  intros Hstep Hnd. destruct Hstep.
  - destruct (start_download_rows w request_url task_id new_uuid now s)
      as [->|[Hnew ->]]; [done|].
    rewrite fmap_app. apply NoDup_app. split; [done|]. split.
    + intros u Hu Hin. apply list_elem_of_singleton in Hin. cbn in Hin.
      subst u. apply list_elem_of_fmap in Hu as (r & Hr & Hin).
      assert (existsb (λ r, (uuid r =? new_uuid)%N) (rows s) = true) as Ht.
      { apply existsb_exists. exists r. split; [by apply list_elem_of_In|].
        apply N.eqb_eq. done. }
      congruence.
    + apply NoDup_singleton.
  - by rewrite check_status_rows.
  - by rewrite update_file_status_uuids.
  - rewrite download_and_process_file_one_write. cbn [snd].
    by rewrite update_file_status_uuids.
Qed.

(** X12: in every session the service can reach, the uuids of the records
    are pairwise different. *)
Theorem reachable_uuids_distinct s :
  reachable w s → NoDup (uuid <$> rows s).
Proof.
  intros [fs Hrun].
  assert (NoDup (uuid <$> rows (mkSession [] fs))) as Hinit by constructor.
  induction Hrun as [|s0 s1 s2 Hstep _ IH]; [done|].
  apply IH. by eapply step_uuids.
Qed.

End Keys.

Lemma reachable_uuids_distinct_witness :
  NoDup (uuid <$> rows session_completed).
Proof.
  apply (reachable_uuids_distinct world_A session_completed).
  exists []. eapply rtc_l.
  { apply (step_start_download world_A example_url 7 1%N 0). }
  eapply rtc_l.
  { apply (step_pipeline world_A routers_file_py example_url 7). }
  apply rtc_refl.
Defined.

(** ** More on the request handlers *)

Section HandlersMore.

Context (w : World).
Implicit Types (url : str) (task_id : Z) (new_uuid : N) (now : Z)
  (s : Session) (r : File).

Lemma begin_no_faults s : faults s = [] → begin s = (false, s).
Proof. unfold begin. by intros ->. Qed.

Lemma start_download_success url task_id new_uuid now s response :
  http_head w url = Ok response →
  Response.status response = 200 →
  (begin s).1 = false →
  existsb (λ r, (uuid r =? new_uuid)%N) (rows s) = false →
  Routers.start_download w url task_id new_uuid now s
  = (Ok (FileDownloadResponse.mk task_id DOWNLOADING),
     set_rows (begin s).2
       (rows s ++ [mkFile new_uuid task_id None url DOWNLOADING 0 [] now])).
Proof.
  intros Hhead Hst Hb Hfresh. unfold Routers.start_download.
  rewrite Hhead, Hst. cbn [Z.eqb Pos.eqb negb].
  pose proof (begin_rows s) as Hr. destruct (begin s) as [b s'].
  cbn in Hb, Hr. subst b. by rewrite Hr, Hfresh.
Qed.

Lemma start_download_Ok_inv url task_id new_uuid now s reply :
  (Routers.start_download w url task_id new_uuid now s).1 = Ok reply →
  ∃ response, http_head w url = Ok response
              ∧ Response.status response = 200
              ∧ (begin s).1 = false
              ∧ existsb (λ r, (uuid r =? new_uuid)%N) (rows s) = false
              ∧ reply = FileDownloadResponse.mk task_id DOWNLOADING.
Proof.
  unfold Routers.start_download.
  destruct (http_head w url) as [response|[]]; [|done..].
  destruct (Z.eqb_spec (Response.status response) 200) as [Hst|]; [|done].
  cbn [negb]. pose proof (begin_rows s) as Hr.
  destruct (begin s) as [[] s']; [done|]. cbn in Hr.
  destruct (existsb _ (rows s')) eqn:He; [done|]. rewrite Hr in He.
  intros [= <-]. by exists response.
Qed.

(** X13: when the HEAD probe raises a ClientError or answers with a
    status other than 200, the request is refused with 400 Invalid URL;
    the session is untouched and no background task runs. *)
Theorem start_download_refuses_invalid_url url task_id new_uuid now s :
  http_head w url = Raise ClientError
  ∨ (∃ response, http_head w url = Ok response
                 ∧ Response.status response ≠ 200) →
  Routers.serve_start_download w url task_id new_uuid now s
  = (Raise (HTTPException 400 (py "Invalid URL")), s).
Proof.
  unfold Routers.serve_start_download, Routers.start_download.
  intros [->|(response & -> & Hst)]; [done|].
  by destruct (Z.eqb_spec (Response.status response) 200).
Qed.

(** X14: when the insert fails in the database (a SQLAlchemyError in the
    transaction, or a uuid that is already a key), the request is
    answered with 500, no record is added and no background task runs. *)
Theorem start_download_database_failure url task_id new_uuid now s response :
  http_head w url = Ok response →
  Response.status response = 200 →
  (begin s).1 = true
  ∨ existsb (λ r, (uuid r =? new_uuid)%N) (rows s) = true →
  (Routers.serve_start_download w url task_id new_uuid now s).1
  = Raise (HTTPException 500 (py "Failed to start download"))
  ∧ rows (Routers.serve_start_download w url task_id new_uuid now s).2
    = rows s.
Proof.
  intros Hhead Hst Hfail.
  unfold Routers.serve_start_download, Routers.start_download.
  rewrite Hhead, Hst. cbn [Z.eqb Pos.eqb negb].
  pose proof (begin_rows s) as Hr. destruct (begin s) as [[] s']; cbn in Hr.
  { by split. }
  destruct Hfail as [Hb|He]; [done|]. rewrite <- Hr in He. rewrite He.
  by split.
Qed.

(** X15: a task created under a task id that no record has yet is found
    by that id, still downloading, with no result; a status query that
    follows at once reports Downloading and the count 0. *)
Theorem start_download_then_lookup url task_id new_uuid now s response :
  http_head w url = Ok response →
  Response.status response = 200 →
  faults s = [] →
  existsb (λ r, (uuid r =? new_uuid)%N) (rows s) = false →
  first_by_task_id task_id (rows s) = None →
  let s' := (Routers.start_download w url task_id new_uuid now s).2 in
  first_by_task_id task_id (rows s')
  = Some (length (rows s),
          mkFile new_uuid task_id None url DOWNLOADING 0 [] now)
  ∧ (Routers.check_status task_id s').1
    = Ok (FileStatusResponse.mk DOWNLOADING 0 [py "..."]).
Proof.
  intros Hhead Hst Hfs Hfresh Hnone s'.
  assert (s' = set_rows s
            (rows s ++ [mkFile new_uuid task_id None url DOWNLOADING 0 [] now]))
    as Hs'.
  { unfold s'. rewrite (start_download_success _ _ _ _ _ response);
      try done; by rewrite begin_no_faults. }
  assert (first_by_task_id task_id (rows s')
          = Some (length (rows s),
                  mkFile new_uuid task_id None url DOWNLOADING 0 [] now))
    as Hfind.
  { rewrite Hs'. cbn [set_rows rows]. unfold first_by_task_id in *.
    apply list_find_Some. split; [|split; [done|]].
    - by rewrite lookup_app_r, Nat.sub_diag.
    - intros j y Hj Hlt. rewrite lookup_app_l in Hj by done.
      apply list_find_None in Hnone.
      by apply (proj1 (Forall_lookup _ _) Hnone j y). }
  split; [done|]. rewrite check_status_unfold.
  rewrite begin_no_faults by by rewrite Hs'. by rewrite Hfind.
Qed.

End HandlersMore.

Lemma start_download_refuses_invalid_url_witness :
  Routers.serve_start_download world_204 example_url 7 1%N 0
    (mkSession [] [])
  = (Raise (HTTPException 400 (py "Invalid URL")), mkSession [] []).
Proof.
  apply (start_download_refuses_invalid_url world_204 example_url 7 1%N 0
           (mkSession [] [])).
  right. exists (Response.mk 204 (Ok gzip_A)). split; [reflexivity|done].
Defined.

Lemma start_download_database_failure_witness :
  (Routers.serve_start_download world_A example_url 8 1%N 0
     session_downloading).1
  = Raise (HTTPException 500 (py "Failed to start download"))
  ∧ rows (Routers.serve_start_download world_A example_url 8 1%N 0
            session_downloading).2 = rows session_downloading.
Proof.
  apply (start_download_database_failure world_A example_url 8 1%N 0
           session_downloading (Response.mk 200 (Ok gzip_A)));
    [reflexivity..|].
  right. reflexivity.
Defined.

Lemma start_download_then_lookup_witness :
  first_by_task_id 7
    (rows (Routers.start_download world_A example_url 7 1%N 0
             (mkSession [] [])).2)
  = Some (0%nat, mkFile 1%N 7 None example_url DOWNLOADING 0 [] 0)
  ∧ (Routers.check_status 7
       (Routers.start_download world_A example_url 7 1%N 0
          (mkSession [] [])).2).1
    = Ok (FileStatusResponse.mk DOWNLOADING 0 [py "..."]).
Proof.
  apply (start_download_then_lookup world_A example_url 7 1%N 0
           (mkSession [] []) (Response.mk 200 (Ok gzip_A))); reflexivity.
Defined.

(** ** A request from its acceptance to its status *)

Section EndToEnd.

Context (w : World).
Implicit Types (url : str) (task_id : Z) (new_uuid : N) (now : Z)
  (s : Session) (r : File).


(** X17: a status query for a task id that no record has is answered
    with 404 Task not found, and a query whose transaction fails with
    500. *)
Theorem check_status_errors task_id s :
  ((begin s).1 = true →
   (Routers.check_status task_id s).1
   = Raise (HTTPException 500 (py "Failed to retrieve status")))
  ∧ ((begin s).1 = false → first_by_task_id task_id (rows s) = None →
     (Routers.check_status task_id s).1
     = Raise (HTTPException 404 (py "Task not found"))).
Proof.
  rewrite check_status_unfold. pose proof (begin_rows s) as Hr.
  destruct (begin s) as [[] s']; cbn in Hr; (split; [done|]).
  - done.
  - intros _ Hf. by rewrite Hr, Hf.
Qed.

(** X18: for a record with more than 20 accessions, the status query
    returns the status and the count of the record and a list of 21
    entries: the first 20 accessions and then the marker. *)
Theorem check_status_truncates task_id s i r :
  (begin s).1 = false →
  first_by_task_id task_id (rows s) = Some (i, r) →
  (20 < length (accession_list r))%nat →
  ∃ shown,
    (Routers.check_status task_id s).1
    = Ok (FileStatusResponse.mk (status r) (result_count r)
            (shown ++ [py "..."]))
    ∧ length shown = 20%nat
    ∧ shown `prefix_of` accession_list r.
Proof.
  intros Hb Hf Hlen. exists (take 20 (accession_list r)).
  rewrite check_status_unfold. pose proof (begin_rows s) as Hr.
  destruct (begin s) as [b s']; cbn in Hb, Hr. subst b. rewrite Hr, Hf.
  split; [done|]. split; [rewrite length_take; lia|apply prefix_take].
Qed.

End EndToEnd.


Lemma check_status_errors_witness :
  (Routers.check_status 7 (mkSession [] [true])).1
  = Raise (HTTPException 500 (py "Failed to retrieve status"))
  ∧ (Routers.check_status 8 session_downloading).1
    = Raise (HTTPException 404 (py "Task not found")).
Proof.
  split.
  - apply (proj1 (check_status_errors 7 (mkSession [] [true]))). reflexivity.
  - apply (proj2 (check_status_errors 8 session_downloading)); reflexivity.
Defined.

Lemma check_status_truncates_witness :
  ∃ shown,
    (Routers.check_status 7 session_long).1
    = Ok (FileStatusResponse.mk COMPLETED 25 (shown ++ [py "..."]))
    ∧ length shown = 20%nat
    ∧ shown `prefix_of` List.map accession_n (seq 0 25).
Proof.
  apply (check_status_truncates 7 session_long 0%nat
           (row_of 7 COMPLETED (List.map accession_n (seq 0 25))));
    [reflexivity | reflexivity | vm_compute; lia].
Defined.

(** ** The statuses of the running service *)

Section ServiceStatuses.

Context (w : World).
Implicit Types (task_id : Z) (st : str) (acc : option (list str))
  (s : Session) (r : File).

Lemma update_file_status_statuses (P : str → Prop) task_id st acc s :
  P st →
  Forall (λ r, P (status r)) (rows s) →
  Forall (λ r, P (status r)) (rows (update_file_status task_id st acc s)).
Proof.
  intros Hst Hall. destruct (begin s).1 eqn:Hb.
  { by rewrite update_file_status_fault. }
  destruct (first_by_task_id task_id (rows s)) as [[i r0]|] eqn:Hf.
  - rewrite (update_file_status_found _ _ _ _ i r0 Hb Hf).
    apply Forall_insert; [done|]. by rewrite assign_status_status.
  - by rewrite update_file_status_missing.
Qed.

Lemma start_download_statuses request_url task_id new_uuid now s :
  Forall (λ r, service_status (status r)) (rows s) →
  Forall (λ r, service_status (status r))
    (rows (Routers.start_download w request_url task_id new_uuid now s).2).
Proof.
  intros Hall.
  destruct (start_download_rows w request_url task_id new_uuid now s)
    as [->|[_ ->]]; [done|].
  apply Forall_app. split; [done|]. apply Forall_singleton. by left.
Qed.

Lemma service_step_statuses s s' :
  service_step w s s' →
  Forall (λ r, service_status (status r)) (rows s) →
  Forall (λ r, service_status (status r)) (rows s').
Proof.
  intros Hstep Hall. destruct Hstep.
  - unfold Routers.serve_start_download.
    pose proof (start_download_statuses request_url task_id new_uuid now s Hall)
      as H1.
    destruct (Routers.start_download w request_url task_id new_uuid now s)
      as [[reply|e] s1]; [|done].
    cbn [snd] in *. rewrite download_and_process_file_one_write. cbn [snd].
    apply update_file_status_statuses; [|done].
    right. apply written_terminal.
  - by rewrite check_status_rows.
Qed.


End ServiceStatuses.

